(** * Rain Flow: a shallow embedding of [rain_flow.py]

    The flow fetches a forecast from the weather provider, decides whether
    rain is predicted ([is_raining_this_week]) and posts one of two Slack
    messages.  The Python functions are embedded as Rocq functions over a
    type of Python values; exceptions are an explicit error result, and the
    observable actions of a run (link artifact, HTTP request, retry delay,
    Slack post) are collected in a trace of events. *)

From Stdlib Require Import ZArith List String Ascii Bool Lia.
From Stdlib Require Import Sorting.Permutation.
From Stdlib Require Import Floats.PrimFloat.
Import ListNotations.

Local Open Scope string_scope.
Local Open Scope Z_scope.

Set Warnings "-register-all".

(** ** Python values

    [r.json()] yields the Python image of a JSON document: [None], a [bool],
    an [int], a [float] (an IEEE binary64 number), a [str], a [list] or a
    [dict] with string keys.  A [dict] keeps its keys in insertion order, so
    it is an association list; [dict_get] reads the first binding of a key. *)

Inductive pyval : Type :=
| PNone
| PBool (b : bool)
| PInt (z : Z)
| PFloat (f : float)
| PStr (s : string)
| PList (l : list pyval)
| PDict (d : list (string * pyval)).

(** The exceptions the modelled code can raise.  An exception is modelled
    by its type; its message is not part of the model. *)
Inductive exn : Type :=
| KeyError
| TypeError
| AttributeError
| HTTPError
| ConnectionError
| JSONDecodeError.

(** A Python expression either yields a value or raises. *)
Inductive result (A : Type) : Type :=
| Ok (a : A)
| Raise (e : exn).

Arguments Ok {A} a.
Arguments Raise {A} e.

Definition bind {A B : Type} (r : result A) (k : A -> result B) : result B :=
  match r with
  | Ok a => k a
  | Raise e => Raise e
  end.

Notation "x <- c ;; k" := (bind c (fun x => k))
  (at level 61, c at next level, right associativity).

(** A list comprehension [[f x for x in xs]] evaluates [f] on the elements
    from left to right and stops at the first one that raises. *)
Fixpoint comprehension {A B : Type} (f : A -> result B) (xs : list A)
  : result (list B) :=
  match xs with
  | [] => Ok []
  | x :: xs' =>
      y <- f x ;;
      ys <- comprehension f xs' ;;
      Ok (y :: ys)
  end.

(** A comprehension with a filter and a body, both of which may raise:
    [[body x for x in xs if cond x]]. *)
Fixpoint comprehension_if {A B : Type}
  (cond : A -> result bool) (body : A -> result B) (xs : list A)
  : result (list B) :=
  match xs with
  | [] => Ok []
  | x :: xs' =>
      c <- cond x ;;
      if c then
        y <- body x ;;
        ys <- comprehension_if cond body xs' ;;
        Ok (y :: ys)
      else comprehension_if cond body xs'
  end.

(** *** Primitive operations of the Python data model *)

Fixpoint dict_get (k : string) (d : list (string * pyval)) : option pyval :=
  match d with
  | [] => None
  | (k', v) :: d' => if String.eqb k k' then Some v else dict_get k d'
  end.

(** [v[k]] for a string key [k]. *)
Definition subscript (v : pyval) (k : string) : result pyval :=
  match v with
  | PDict d =>
      match dict_get k d with
      | Some x => Ok x
      | None => Raise KeyError
      end
  | _ => Raise TypeError
  end.

(** The one-character strings of a [str], in order. *)
Fixpoint chars (s : string) : list pyval :=
  match s with
  | EmptyString => []
  | String c s' => PStr (String c EmptyString) :: chars s'
  end.

(** [for x in v]: the elements of a list, the keys of a dict, the characters
    of a string; anything else is not iterable. *)
Definition iterate (v : pyval) : result (list pyval) :=
  match v with
  | PList l => Ok l
  | PDict d => Ok (map (fun kv => PStr (fst kv)) d)
  | PStr s => Ok (chars s)
  | _ => Raise TypeError
  end.

(** [x == k] for a string [k]: only an equal string compares equal. *)
Definition eq_str (k : string) (x : pyval) : bool :=
  match x with
  | PStr s => String.eqb s k
  | _ => false
  end.

Definition is_substring (k s : string) : bool :=
  match String.index 0 k s with
  | Some _ => true
  | None => false
  end.

(** [k in v] for a string [k]: key membership in a dict, element membership
    in a list, substring test in a string. *)
Definition contains (k : string) (v : pyval) : result bool :=
  match v with
  | PDict d =>
      Ok (match dict_get k d with Some _ => true | None => false end)
  | PList l => Ok (existsb (eq_str k) l)
  | PStr s => Ok (is_substring k s)
  | _ => Raise TypeError
  end.

(** [v.get(k, default)]: only a dict has the method. *)
Definition get (v : pyval) (k : string) (default : pyval) : result pyval :=
  match v with
  | PDict d =>
      Ok (match dict_get k d with Some x => x | None => default end)
  | _ => Raise AttributeError
  end.

(** [s >= 1]: defined on numbers ([bool] is a subtype of [int], with
    [True == 1]); ordering [None], a string, a list or a dict against an
    [int] raises [TypeError]. *)
Definition ge_1 (s : pyval) : result bool :=
  match s with
  | PBool b => Ok b
  | PInt z => Ok (1 <=? z)
  | PFloat f => Ok (PrimFloat.leb 1%float f)
  | _ => Raise TypeError
  end.

(** [sum] of a list of booleans counts the [True]s. *)
Fixpoint sum (bs : list bool) : Z :=
  match bs with
  | [] => 0
  | b :: bs' => (if b then 1 else 0) + sum bs'
  end.

(** ** The analysis task *)

Definition is_raining_this_week (data : pyval) : result bool :=
  lst <- subscript data "list" ;;
  forecasts <- iterate lst ;;
  rain <- comprehension_if
            (fun forecast => contains "rain" forecast)
            (fun forecast =>
               r <- subscript forecast "rain" ;;
               get r "3h" (PInt 0))
            forecasts ;;
  flags <- comprehension ge_1 rain ;;
  Ok (if 1 <=? sum flags then true else false).

(** What a caller sees of a result when it does not tell exceptions apart. *)
Definition returned {A : Type} (r : result A) : option A :=
  match r with
  | Ok a => Some a
  | Raise _ => None
  end.

(** ** Observable actions of a run

    What a run does to the outside world, in the order it happens. *)

Inductive event : Type :=
| LinkArtifact (url : string)
| HttpGet (url : string)
| RetryDelay (seconds : Z)
| SlackPost (webhook_secret message : string).

(** A task body produces a trace of events and then returns or raises. *)
Definition task (A : Type) : Type := list event * result A.

Definition ret {A : Type} (a : A) : task A := ([], Ok a).

Definition lift {A : Type} (r : result A) : task A := ([], r).

Definition emit (e : event) : task unit := ([e], Ok tt).

Definition tbind {A B : Type} (t : task A) (k : A -> task B) : task B :=
  match t with
  | (tr, Ok a) => let (tr', r) := k a in ((tr ++ tr')%list, r)
  | (tr, Raise e) => (tr, Raise e)
  end.

Notation "x <~ c ;; k" := (tbind c (fun x => k))
  (at level 61, c at next level, right associativity).

Definition trace {A : Type} (t : task A) : list event := fst t.
Definition outcome {A : Type} (t : task A) : result A := snd t.

(** ** The weather provider and the [requests] calls

    What one call of [requests.get] comes back with: no answer at all, or
    the status code and the body of the response the call returns, which is
    the one at the end of any redirects the call has followed; the body is a
    JSON document or is not. *)

Inductive reply : Type :=
| NoReply
| Response (status_code : Z) (body : option pyval).

(** [create_link(url)] records the URL as a link artifact of the task run. *)
Definition create_link (url : string) : task unit := emit (LinkArtifact url).

(** [requests.get(url)] issues the request; without an answer it raises. *)
Definition requests_get (net : reply) (url : string) : task (Z * option pyval) :=
  ([HttpGet url],
   match net with
   | NoReply => Raise ConnectionError
   | Response status_code body => Ok (status_code, body)
   end).

(** [Response.raise_for_status]: a client error (4xx) or a server error
    (5xx) raises [HTTPError]; every other status passes. *)
Definition is_error_status (status_code : Z) : bool :=
  ((400 <=? status_code) && (status_code <? 500))
  || ((500 <=? status_code) && (status_code <? 600)).

Definition raise_for_status (r : Z * option pyval) : result unit :=
  if is_error_status (fst r) then Raise HTTPError else Ok tt.

(** [Response.json]: the parsed body, or an error when it is not JSON. *)
Definition json (r : Z * option pyval) : result pyval :=
  match snd r with
  | Some data => Ok data
  | None => Raise JSONDecodeError
  end.

(** ** The extraction task *)

Definition request_url (city api_key : string) : string :=
  let base_url := "http://api.openweathermap.org/data/2.5/forecast?" in
  base_url ++ "appid=" ++ api_key ++ "&q=" ++ city.

Definition pull_forecast (city api_key : string) (net : reply) : task pyval :=
  let url := request_url city api_key in
  link_artifact <~ create_link url ;;
  r <~ requests_get net url ;;
  _ <~ lift (raise_for_status r) ;;
  data <~ lift (json r) ;;
  ret data.

(** ** The task runner

    A task declared with [max_retries] and [retry_delay] is run again after
    a failed attempt, as long as retries are left, after waiting for the
    delay; the failure of the last attempt is the failure of the task.
    [body n] is the [n]-th attempt (counted from 0). *)

Fixpoint run_with_retries {A : Type} (max_retries : nat) (retry_delay : Z)
  (attempt : nat) (body : nat -> task A) : task A :=
  match body attempt with
  | (tr, Ok a) => (tr, Ok a)
  | (tr, Raise e) =>
      match max_retries with
      | O => (tr, Raise e)
      | S retries_left =>
          let (tr', r) := run_with_retries retries_left retry_delay (S attempt) body in
          ((tr ++ RetryDelay retry_delay :: tr')%list, r)
      end
  end.

(** [pull_forecast] as decorated: [max_retries=2], a [retry_delay] of 5
    seconds; [provider n] answers the request of the [n]-th attempt. *)
Definition pull_forecast_task (city api_key : string) (provider : nat -> reply)
  : task pyval :=
  run_with_retries 2 5 0 (fun n => pull_forecast city api_key (provider n)).

(** ** Parameter, notification tasks and the flow *)

Record ParameterTask : Type := { name : string; default : string }.

(** A parameter takes the value supplied for its name at run time, and its
    default when none is supplied. *)
Definition resolve (p : ParameterTask) (parameters : list (string * string)) : string :=
  match find (fun kv => String.eqb (fst kv) (name p)) parameters with
  | Some kv => snd kv
  | None => default p
  end.

Definition city : ParameterTask := {| name := "City"; default := "San Francisco" |}.

Record SlackTask : Type := { message : string; webhook_secret : string }.

Definition rain_notification : SlackTask :=
  {| message := "RAIN in the forecast for this week!";
     webhook_secret := "SLACK_WEBHOOK_URL_MHQ" |}.

Definition dry_notification : SlackTask :=
  {| message := "NO RAIN in the forecast for this week!";
     webhook_secret := "SLACK_WEBHOOK_URL_MHQ" |}.

(** Running a notification task posts its message to its webhook.  The
    event is the post; what the webhook answers is not part of the model. *)
Definition notify (t : SlackTask) : task unit :=
  emit (SlackPost (webhook_secret t) (message t)).

(** [with case(task, value): body]: the body runs when the task's result
    equals [value] and is skipped otherwise. *)
Definition case (result_ value : bool) (body : task unit) : task unit :=
  if Bool.eqb result_ value then body else ret tt.

(** One run of the flow: [parameters] are the values supplied by the caller,
    [api_key] is the secret resolved at run time, and [provider n] is the
    provider's answer to the [n]-th request of the run.  A task that fails
    keeps the tasks that depend on it from running. *)
Definition flow (parameters : list (string * string)) (api_key : string)
  (provider : nat -> reply) : task unit :=
  forecast <~ pull_forecast_task (resolve city parameters) api_key provider ;;
  rain <~ lift (is_raining_this_week forecast) ;;
  _ <~ case rain true (notify rain_notification) ;;
  case rain false (notify dry_notification).

(** The notification tasks that fired in a trace. *)
Definition fired (t : SlackTask) (tr : list event) : nat :=
  List.length (filter (fun e =>
            match e with
            | SlackPost w m => String.eqb w (webhook_secret t) && String.eqb m (message t)
            | _ => false
            end) tr).

Definition requests_sent (tr : list event) : nat :=
  List.length (filter (fun e => match e with HttpGet _ => true | _ => false end) tr).

(** ** Vocabulary of the specification

    The documented shape of a forecast response: an object whose [list] is a
    list of entries; an entry is an object; its [rain] field, when present,
    is an object; the [3h] value of that object, when present, is a number. *)

Definition is_number (v : pyval) : bool :=
  match v with
  | PInt _ | PFloat _ => true
  | _ => false
  end.

Definition rain_ok (r : pyval) : bool :=
  match r with
  | PDict rd =>
      match dict_get "3h" rd with
      | Some v => is_number v
      | None => true
      end
  | _ => false
  end.

Definition entry_ok (e : pyval) : bool :=
  match e with
  | PDict ed =>
      match dict_get "rain" ed with
      | Some r => rain_ok r
      | None => true
      end
  | _ => false
  end.

Definition forecast_response (data : pyval) : bool :=
  match subscript data "list" with
  | Ok (PList l) => forallb entry_ok l
  | _ => false
  end.

(** The entry list of a response. *)
Definition entries (data : pyval) : list pyval :=
  match subscript data "list" with
  | Ok (PList l) => l
  | _ => []
  end.

(** The 3-hour value of the precipitation field an entry carries, 0 when
    the sub-key is absent; [None] when the entry carries no such field. *)
Definition precipitation (e : pyval) : option pyval :=
  match e with
  | PDict ed =>
      match dict_get "rain" ed with
      | Some (PDict rd) =>
          Some (match dict_get "3h" rd with Some v => v | None => PInt 0 end)
      | _ => None
      end
  | _ => None
  end.

(** A number that is at least the threshold 1.0. *)
Definition reaches_threshold (v : pyval) : Prop :=
  match v with
  | PInt z => 1 <= z
  | PFloat f => PrimFloat.leb 1%float f = true
  | _ => False
  end.

Definition rainy (e : pyval) : Prop :=
  exists v, precipitation e = Some v /\ reaches_threshold v.

(** An entry without a precipitation field, or whose precipitation object
    has no 3-hour sub-key. *)
Definition contributes_nothing (e : pyval) : bool :=
  match e with
  | PDict ed =>
      match dict_get "rain" ed with
      | None => true
      | Some (PDict rd) =>
          match dict_get "3h" rd with
          | None => true
          | Some _ => false
          end
      | Some _ => false
      end
  | _ => false
  end.

(** ** Decomposition of the classifier

    [classify] is the part of [is_raining_this_week] that works on the
    iterated entries; [entry_flag] is what the two comprehensions compute
    for one entry when they are read entry by entry. *)

Definition classify (forecasts : list pyval) : result bool :=
  rain <- comprehension_if
            (fun forecast => contains "rain" forecast)
            (fun forecast =>
               r <- subscript forecast "rain" ;;
               get r "3h" (PInt 0))
            forecasts ;;
  flags <- comprehension ge_1 rain ;;
  Ok (if 1 <=? sum flags then true else false).

Definition entry_flag (forecast : pyval) : result bool :=
  c <- contains "rain" forecast ;;
  if c then
    r <- subscript forecast "rain" ;;
    s <- get r "3h" (PInt 0) ;;
    ge_1 s
  else Ok false.

(** Two flag lists agree when both computations raise, or both return and
    count the same number of [True]s. *)
Definition agree (r1 r2 : result (list bool)) : Prop :=
  match r1, r2 with
  | Ok f1, Ok f2 => sum f1 = sum f2
  | Raise _, Raise _ => True
  | _, _ => False
  end.

Definition decide_rain (r : result (list bool)) : result bool :=
  flags <- r ;; Ok (if 1 <=? sum flags then true else false).

(** ** Vocabulary for URLs and traces *)

Fixpoint count_char (c : ascii) (s : string) : nat :=
  match s with
  | EmptyString => 0%nat
  | String a s' => ((if Ascii.eqb a c then 1 else 0) + count_char c s')%nat
  end.

(** The part of a string before, and after, the first occurrence of [c]. *)
Fixpoint before (c : ascii) (s : string) : string :=
  match s with
  | EmptyString => EmptyString
  | String a s' => if Ascii.eqb a c then EmptyString else String a (before c s')
  end.

Fixpoint after (c : ascii) (s : string) : string :=
  match s with
  | EmptyString => EmptyString
  | String a s' => if Ascii.eqb a c then s' else after c s'
  end.




(** The events of one attempt, and what the attempt yields for a reply. *)
Definition attempt_trace (url : string) : list event :=
  [LinkArtifact url; HttpGet url].

Definition fetch_result (net : reply) : result pyval :=
  match net with
  | NoReply => Raise ConnectionError
  | Response status_code body =>
      if is_error_status status_code then Raise HTTPError
      else match body with
           | Some data => Ok data
           | None => Raise JSONDecodeError
           end
  end.

(** The part of the flow that follows the fetch. *)
Definition after_fetch (forecast : pyval) : task unit :=
  rain <~ lift (is_raining_this_week forecast) ;;
  _ <~ case rain true (notify rain_notification) ;;
  case rain false (notify dry_notification).

(** A success status in the sense of HTTP: 2xx. *)
Definition is_success_status (status_code : Z) : bool :=
  (200 <=? status_code) && (status_code <? 300).

(** The trace of a fetch stage that needed all three attempts. *)
Definition three_attempts (url : string) : list event :=
  (attempt_trace url ++ RetryDelay 5 :: attempt_trace url
     ++ RetryDelay 5 :: attempt_trace url)%list.

(** The forecast list of end-to-end scenario A. *)
Definition scenario_A : list pyval :=
  [PDict []; PDict [("rain", PDict [("3h", PFloat 0.5%float)])]].

(** ** Vocabulary of the further properties *)

(** A value that [>=] can order against an [int]. *)
Definition is_comparable (v : pyval) : bool :=
  match v with
  | PBool _ | PInt _ | PFloat _ => true
  | _ => false
  end.

(** The entries the classifier gets past: an object without a [rain] key,
    or whose [rain] is an object with an absent or comparable [3h] value; a
    list that has no element equal to the string [rain]; a string in which
    the text [rain] does not occur. *)
Definition entry_tolerated (e : pyval) : bool :=
  match e with
  | PDict ed =>
      match dict_get "rain" ed with
      | None => true
      | Some (PDict rd) =>
          match dict_get "3h" rd with
          | None => true
          | Some v => is_comparable v
          end
      | Some _ => false
      end
  | PList l => negb (existsb (eq_str "rain") l)
  | PStr s => negb (is_substring "rain" s)
  | _ => false
  end.

(** An entry whose precipitation value the comparison [>= 1] accepts. *)
Definition counts_as_rain (e : pyval) : Prop :=
  exists v, precipitation e = Some v /\ ge_1 v = Ok true.

Definition posts (tr : list event) : nat :=
  List.length (filter (fun e => match e with SlackPost _ _ => true | _ => false end) tr).

(** [j + 1] attempts for one URL with a wait of [d] seconds after each of
    the first [j]: attempt, wait, attempt, ..., wait, attempt. *)
Fixpoint attempts_with_delays (url : string) (d : Z) (j : nat) : list event :=
  match j with
  | O => attempt_trace url
  | S j' => (attempt_trace url ++ RetryDelay d :: attempts_with_delays url d j')%list
  end.

(** An entry with one more field in front of the others. *)
Definition with_field (k : string) (v : pyval) (e : pyval) : pyval :=
  match e with
  | PDict ed => PDict ((k, v) :: ed)
  | _ => e
  end.

(** ** The schedule

    The flow is scheduled by one cron clock.  A cron expression has five
    fields, for the minute, the hour, the day of the month, the month and
    the day of the week (0 or 7 for Sunday, 1 for Monday, ...); a field is
    a comma-separated list of items, an item is [*], a number or a range
    [a-b], optionally followed by [/step].  Names of months and days and
    the other extensions of the syntax are not modelled: such an expression
    parses to [None].  Moments are wall-clock times in the time zone of the
    clock's start date, and the clock only fires at moments after it. *)

Record CronClock : Type := { cron : string }.

Definition schedule : list CronClock := [ {| cron := "0 12 * * 1-5" |} ].

Record moment : Type :=
  { minute : nat; hour : nat; day : nat; month : nat; weekday : nat }.

Definition valid_moment (t : moment) : Prop :=
  (minute t < 60 /\ hour t < 24 /\ 1 <= day t <= 31 /\ 1 <= month t <= 12
   /\ weekday t < 7)%nat.

Fixpoint split_on (sep : ascii) (s : string) : list string :=
  match s with
  | EmptyString => [EmptyString]
  | String a s' =>
      if Ascii.eqb a sep then EmptyString :: split_on sep s'
      else match split_on sep s' with
           | [] => [String a EmptyString]
           | h :: t => String a h :: t
           end
  end.

Definition digit (c : ascii) : option nat :=
  let n := nat_of_ascii c in
  if ((48 <=? n) && (n <=? 57))%nat then Some (n - 48)%nat else None.

Fixpoint parse_digits (acc : nat) (s : string) : option nat :=
  match s with
  | EmptyString => Some acc
  | String c s' =>
      match digit c with
      | Some d => parse_digits (10 * acc + d)%nat s'
      | None => None
      end
  end.

Definition parse_number (s : string) : option nat :=
  match s with
  | EmptyString => None
  | _ => parse_digits 0 s
  end.

(** An item selects the values from [lo] to [hi] that are a multiple of
    [step] away from [lo]. *)
Record cron_item : Type := { lo : nat; hi : nat; step : nat }.

(** The range of an item, for a field whose values go from [fmin] to
    [fmax]: [*] is the whole field, [a] alone is [a-a], and [a] with a step
    is [a-fmax]. *)
Definition parse_range (fmin fmax : nat) (stepped : bool) (s : string)
  : option (nat * nat) :=
  if String.eqb s "*" then Some (fmin, fmax)
  else match split_on "-" s with
       | [a] =>
           match parse_number a with
           | Some n => Some (n, if stepped then fmax else n)
           | None => None
           end
       | [a; b] =>
           match parse_number a, parse_number b with
           | Some n, Some m => Some (n, m)
           | _, _ => None
           end
       | _ => None
       end.

Definition check_item (fmin fmax : nat) (it : cron_item) : option cron_item :=
  if ((fmin <=? lo it) && (lo it <=? hi it) && (hi it <=? fmax) && (1 <=? step it))%nat
  then Some it else None.

Definition parse_item (fmin fmax : nat) (s : string) : option cron_item :=
  match split_on "/" s with
  | [r] =>
      match parse_range fmin fmax false r with
      | Some (a, b) => check_item fmin fmax {| lo := a; hi := b; step := 1 |}
      | None => None
      end
  | [r; st] =>
      match parse_range fmin fmax true r, parse_number st with
      | Some (a, b), Some n => check_item fmin fmax {| lo := a; hi := b; step := n |}
      | _, _ => None
      end
  | _ => None
  end.

Fixpoint parse_items (fmin fmax : nat) (ss : list string) : option (list cron_item) :=
  match ss with
  | [] => Some []
  | s :: ss' =>
      match parse_item fmin fmax s, parse_items fmin fmax ss' with
      | Some it, Some its => Some (it :: its)
      | _, _ => None
      end
  end.

Definition parse_field (fmin fmax : nat) (s : string) : option (list cron_item) :=
  parse_items fmin fmax (split_on "," s).

Definition item_matches (it : cron_item) (v : nat) : bool :=
  ((lo it <=? v) && (v <=? hi it) && ((v - lo it) mod step it =? 0))%nat.

Definition field_matches (its : list cron_item) (v : nat) : bool :=
  existsb (fun it => item_matches it v) its.

(** Sunday is day 0 of the week and can also be written 7. *)
Definition weekday_matches (its : list cron_item) (v : nat) : bool :=
  field_matches its v || ((v =? 0)%nat && field_matches its 7).

(** Whether a cron expression selects a moment.  When both the day of the
    month and the day of the week are restricted, a moment that fits either
    is selected; otherwise it has to fit both. *)
Definition cron_matches (expr : string) (t : moment) : option bool :=
  match filter (fun f => negb (String.eqb f "")) (split_on " " expr) with
  | [mi; ho; dm; mo; dw] =>
      match parse_field 0 59 mi, parse_field 0 23 ho, parse_field 1 31 dm,
            parse_field 1 12 mo, parse_field 0 7 dw with
      | Some fmi, Some fho, Some fdm, Some fmo, Some fdw =>
          let day_fits := field_matches fdm (day t) in
          let weekday_fits := weekday_matches fdw (weekday t) in
          Some (field_matches fmi (minute t)
                && field_matches fho (hour t)
                && field_matches fmo (month t)
                && (if String.eqb dm "*" || String.eqb dw "*"
                    then day_fits && weekday_fits
                    else day_fits || weekday_fits))
      | _, _, _, _, _ => None
      end
  | _ => None
  end.

(** A schedule fires at the moments one of its clocks selects. *)
Definition schedule_fires (clocks : list CronClock) (t : moment) : bool :=
  existsb (fun c => match cron_matches (cron c) t with
                    | Some b => b
                    | None => false
                    end) clocks.

(** * Properties *)

(** ** The classifier *)

Lemma sum_nonneg (bs : list bool) : 0 <= sum bs.
Proof.
  induction bs as [|b bs IH]; simpl; [lia|].
  destruct b; lia.
Qed.

Lemma sum_ge_1_iff (bs : list bool) : 1 <= sum bs <-> In true bs.
Proof.
  induction bs as [|b bs IH]; simpl.
  - split; [lia | tauto].
  - pose proof (sum_nonneg bs) as Hs.
    destruct b; split; intros H.
    + now left.
    + lia.
    + right. apply IH. lia.
    + destruct H as [H|H]; [discriminate|]. apply IH in H. lia.
Qed.

Lemma is_raining_this_week_unfold (data : pyval) :
  is_raining_this_week data
  = (lst <- subscript data "list" ;; forecasts <- iterate lst ;; classify forecasts).
Proof. reflexivity. Qed.

Lemma classify_unfold (l : list pyval) :
  classify l
  = decide_rain
      (rain <- comprehension_if
                 (fun forecast => contains "rain" forecast)
                 (fun forecast => r <- subscript forecast "rain" ;; get r "3h" (PInt 0))
                 l ;;
       comprehension ge_1 rain).
Proof.
  unfold classify, decide_rain.
  destruct (comprehension_if _ _ l) as [rain|e]; reflexivity.
Qed.

Lemma agree_trans (r1 r2 r3 : result (list bool)) :
  agree r1 r2 -> agree r2 r3 -> agree r1 r3.
Proof. destruct r1, r2, r3; simpl; intros; try tauto; congruence. Qed.

Lemma agree_decide (r1 r2 : result (list bool)) :
  agree r1 r2 -> returned (decide_rain r1) = returned (decide_rain r2).
Proof.
  destruct r1, r2; simpl; intros H; try tauto.
  now rewrite H.
Qed.

(** Prefixing a flag to both sides keeps them in agreement. *)
Lemma agree_cons (b : bool) (r1 r2 : result (list bool)) :
  agree r1 r2 ->
  agree (ys <- r1 ;; Ok (b :: ys)) (ys <- r2 ;; Ok (b :: ys)).
Proof.
  destruct r1, r2; simpl; intros H; try tauto.
  now rewrite H.
Qed.

(** The two passes of the classifier, read entry by entry. *)
Lemma two_passes (l : list pyval) :
  agree
    (rain <- comprehension_if
               (fun forecast => contains "rain" forecast)
               (fun forecast => r <- subscript forecast "rain" ;; get r "3h" (PInt 0))
               l ;;
     comprehension ge_1 rain)
    (comprehension entry_flag l).
Proof.
  induction l as [|x l IH]; simpl.
  - reflexivity.
  - unfold entry_flag at 1.
    destruct (contains "rain" x) as [c|e]; simpl; [|exact I].
    destruct c.
    + destruct (subscript x "rain") as [r|e]; simpl; [|exact I].
      destruct (get r "3h" (PInt 0)) as [s|e]; simpl; [|exact I].
      destruct (comprehension_if _ _ l) as [rain|e]; simpl in *.
      * destruct (ge_1 s) as [y|e]; simpl; [|exact I].
        now apply agree_cons.
      * destruct (ge_1 s) as [y|e1]; simpl; [|exact I].
        destruct (comprehension entry_flag l); simpl in *; tauto.
    + assert (H : agree (comprehension entry_flag l)
                    (ys <- comprehension entry_flag l ;; Ok (false :: ys))).
      { destruct (comprehension entry_flag l); simpl; auto. }
      eapply agree_trans; [exact IH | exact H].
Qed.

Lemma classify_returned (l : list pyval) :
  returned (classify l) = returned (decide_rain (comprehension entry_flag l)).
Proof.
  rewrite classify_unfold. apply agree_decide, two_passes.
Qed.

Lemma comprehension_perm (f : pyval -> result bool) (l l' : list pyval) :
  Permutation l l' -> agree (comprehension f l) (comprehension f l').
Proof.
  induction 1 as [|x l l' _ IH|x y l|l l' l'' _ IH1 _ IH2].
  - reflexivity.
  - simpl. destruct (f x) as [b|e]; simpl; [|exact I].
    now apply agree_cons.
  - simpl.
    destruct (f x) as [bx|ex], (f y) as [by_|ey]; simpl; try exact I.
    destruct (comprehension f l) as [ys|e]; simpl; [|exact I].
    destruct bx, by_; lia.
  - eapply agree_trans; eassumption.
Qed.

Lemma classify_perm (l l' : list pyval) :
  Permutation l l' -> returned (classify l) = returned (classify l').
Proof.
  intros HP. rewrite !classify_returned.
  apply agree_decide, comprehension_perm, HP.
Qed.

(** On an entry of the documented shape the flag is defined, and it is
    [true] exactly for a rainy entry. *)
Lemma entry_flag_ok (e : pyval) :
  entry_ok e = true ->
  exists b, entry_flag e = Ok b /\ (b = true <-> rainy e).
Proof.
  destruct e as [| | | | |l|ed]; try discriminate.
  unfold entry_ok, entry_flag, rainy, precipitation, contains, subscript.
  destruct (dict_get "rain" ed) as [r|] eqn:Hr; simpl.
  - destruct r as [| | | | |l|rd]; try discriminate.
    unfold rain_ok, get.
    destruct (dict_get "3h" rd) as [v|] eqn:H3; simpl.
    + destruct v; try discriminate; intros _; simpl.
      * exists (1 <=? z). split; [reflexivity|].
        rewrite Z.leb_le. split.
        -- intros H. exists (PInt z). now split.
        -- intros [v [Hv Ht]]. injection Hv as <-. exact Ht.
      * exists (PrimFloat.leb 1%float f). split; [reflexivity|]. split.
        -- intros H. exists (PFloat f). now split.
        -- intros [v [Hv Ht]]. injection Hv as <-. exact Ht.
    + intros _. exists false. split; [reflexivity|]. split; [discriminate|].
      intros [v [Hv Ht]]. injection Hv as <-. simpl in Ht. lia.
  - intros _. exists false. split; [reflexivity|]. split; [discriminate|].
    intros [v [Hv _]]. discriminate.
Qed.

Lemma comprehension_flags (l : list pyval) :
  forallb entry_ok l = true ->
  exists flags,
    comprehension entry_flag l = Ok flags
    /\ (In true flags <-> exists e, In e l /\ rainy e).
Proof.
  induction l as [|x l IH]; simpl; intros H.
  - exists []. split; [reflexivity|]. simpl. split; [tauto|].
    intros [e [[] _]].
  - apply andb_true_iff in H as [Hx Hl].
    destruct (entry_flag_ok x Hx) as [b [Hb Hiff]].
    destruct (IH Hl) as [flags [Hf Hin]].
    exists (b :: flags). rewrite Hb, Hf. split; [reflexivity|].
    simpl. split.
    + intros [Hbt|Ht].
      * exists x. split; [now left|]. now apply Hiff.
      * apply Hin in Ht as [e [He Hr]]. exists e. split; [now right|exact Hr].
    + intros [e [[<-|He] Hr]].
      * left. now apply Hiff.
      * right. apply Hin. now exists e.
Qed.

(** When every entry has a defined flag, [classify] returns, and it
    returns [true] exactly when one of the flags is [True]. *)
Lemma classify_of_flags (l : list pyval) (flags : list bool) :
  comprehension entry_flag l = Ok flags ->
  exists b, classify l = Ok b /\ (b = true <-> In true flags).
Proof.
  intros Hf. pose proof (classify_returned l) as H.
  rewrite Hf in H. simpl in H.
  destruct (classify l) as [b|e]; [|discriminate].
  injection H as ->. eexists. split; [reflexivity|].
  rewrite <- sum_ge_1_iff.
  destruct (1 <=? sum flags) eqn:E;
    [apply Z.leb_le in E | apply Z.leb_gt in E]; split; intros; try lia;
    try reflexivity; discriminate.
Qed.

Lemma contributes_nothing_flag (e : pyval) :
  contributes_nothing e = true -> entry_flag e = Ok false.
Proof.
  destruct e as [| | | | |l|ed]; try discriminate.
  unfold contributes_nothing, entry_flag, contains, subscript.
  destruct (dict_get "rain" ed) as [r|]; simpl; [|reflexivity].
  destruct r as [| | | | |l|rd]; try discriminate.
  unfold get. destruct (dict_get "3h" rd); [discriminate|reflexivity].
Qed.

(** Inserting an entry that contributes nothing leaves the flags' count,
    and whether they are defined, as they were. *)
Lemma comprehension_insert (pre post : list pyval) (e : pyval) :
  contributes_nothing e = true ->
  agree (comprehension entry_flag (pre ++ e :: post))
        (comprehension entry_flag (pre ++ post)).
Proof.
  intros He. apply contributes_nothing_flag in He.
  eapply agree_trans.
  - apply comprehension_perm, Permutation_sym, Permutation_middle.
  - simpl. rewrite He. simpl.
    destruct (comprehension entry_flag (pre ++ post)); simpl; auto.
Qed.

(** C1.  On every forecast response (of the documented shape) the
    classifier returns, and it returns [true] if and only if at least one
    entry of the entry list carries a precipitation field whose 3-hour value,
    0 when the sub-key is absent, is at least the threshold 1.0. *)
Theorem is_raining_iff_some_entry_rainy (data : pyval) :
  forecast_response data = true ->
  exists b,
    is_raining_this_week data = Ok b
    /\ (b = true <-> exists e, In e (entries data) /\ rainy e).
Proof.
  unfold forecast_response, entries. intros H.
  rewrite is_raining_this_week_unfold.
  destruct (subscript data "list") as [lst|]; [|discriminate].
  destruct lst as [| | | | |l|]; try discriminate. simpl.
  destruct (comprehension_flags l H) as [flags [Hf Hin]].
  destruct (classify_of_flags l flags Hf) as [b [Hb Hiff]].
  exists b. split; [exact Hb|].
  now rewrite Hiff.
Qed.

Lemma is_raining_iff_some_entry_rainy_witness :
  exists b,
    is_raining_this_week
      (PDict [("cod", PStr "200");
              ("list", PList [PDict [("dt", PInt 1)];
                              PDict [("rain", PDict [])];
                              PDict [("rain", PDict [("3h", PFloat 1.5%float)])]])])
    = Ok b
    /\ (b = true <->
        exists e,
          In e (entries
                  (PDict [("cod", PStr "200");
                          ("list", PList [PDict [("dt", PInt 1)];
                                          PDict [("rain", PDict [])];
                                          PDict [("rain", PDict [("3h", PFloat 1.5%float)])]])]))
          /\ rainy e).
Proof.
  apply is_raining_iff_some_entry_rainy. reflexivity.
Defined.

(** Scenario B: one entry with 2.0 in its 3-hour window is rain. *)
Example scenario_B :
  is_raining_this_week
    (PDict [("list", PList [PDict [("rain", PDict [("3h", PFloat 2%float)])]])])
  = Ok true.
Proof. reflexivity. Qed.

(** Shapes that are not forecast responses: an entry list that is a
    string or an object is iterated character by character or key by key,
    and a string entry that contains the text [rain] is subscripted. *)
Example is_raining_list_is_string :
  is_raining_this_week (PDict [("list", PStr "terrain")]) = Ok false.
Proof. reflexivity. Qed.

Example is_raining_entry_is_string :
  is_raining_this_week (PDict [("list", PList [PStr "terrain"])]) = Raise TypeError.
Proof. reflexivity. Qed.

Example is_raining_value_is_none :
  is_raining_this_week
    (PDict [("list", PList [PDict [("rain", PDict [("3h", PNone)])]])])
  = Raise TypeError.
Proof. reflexivity. Qed.

(** C2, the claim as stated is refuted: a response without an entry list
    makes the classifier raise, and so does a precipitation field that is
    not a mapping. *)
Lemma is_raining_not_total :
  ~ (forall data, exists b, is_raining_this_week data = Ok b).
Proof.
  intros H. destruct (H (PDict [])) as [b Hb]. discriminate.
Qed.

Example is_raining_missing_list :
  is_raining_this_week (PDict [("cod", PStr "200")]) = Raise KeyError.
Proof. reflexivity. Qed.

Example is_raining_rain_not_mapping :
  is_raining_this_week (PDict [("list", PList [PDict [("rain", PFloat 2%float)]])])
  = Raise AttributeError.
Proof. reflexivity. Qed.

(** C2, amended.  On a response of the documented shape the classifier
    returns without raising, and an entry without a precipitation field, or
    whose precipitation object lacks the 3-hour sub-key, contributes no
    rain: a response with such an entry inserted anywhere in the entry list
    gets the same answer. *)
Theorem is_raining_total_on_shape (data : pyval) :
  forecast_response data = true ->
  exists b,
    is_raining_this_week data = Ok b
    /\ forall data' pre e post,
         entries data = (pre ++ post)%list ->
         subscript data' "list" = Ok (PList (pre ++ e :: post)%list) ->
         contributes_nothing e = true ->
         is_raining_this_week data' = Ok b.
Proof.
  unfold forecast_response, entries. intros H.
  rewrite is_raining_this_week_unfold.
  destruct (subscript data "list") as [lst|]; [|discriminate].
  destruct lst as [| | | | |l|]; try discriminate. simpl.
  destruct (comprehension_flags l H) as [flags [Hf _]].
  destruct (classify_of_flags l flags Hf) as [b [Hb _]].
  exists b. split; [exact Hb|].
  intros data' pre e post -> Hsub He.
  rewrite is_raining_this_week_unfold, Hsub. simpl.
  pose proof (comprehension_insert pre post e He) as Hag.
  apply agree_decide in Hag. rewrite <- !classify_returned in Hag.
  rewrite Hb in Hag. simpl in Hag.
  destruct (classify (pre ++ e :: post)) as [b'|]; [|discriminate].
  now injection Hag as ->.
Qed.

Lemma is_raining_total_on_shape_witness :
  exists b,
    is_raining_this_week
      (PDict [("list", PList [PDict [("rain", PDict [("3h", PInt 3)])]])]) = Ok b
    /\ forall data' pre e post,
         entries (PDict [("list", PList [PDict [("rain", PDict [("3h", PInt 3)])]])])
         = (pre ++ post)%list ->
         subscript data' "list" = Ok (PList (pre ++ e :: post)%list) ->
         contributes_nothing e = true ->
         is_raining_this_week data' = Ok b.
Proof.
  apply is_raining_total_on_shape. reflexivity.
Defined.

(** C5.  The classifier is deterministic, and the order of the entries
    does not matter: two responses whose entry lists are permutations of
    each other get the same boolean (and when one raises, so does the
    other). *)
Theorem is_raining_order_independent (data data' : pyval) (l l' : list pyval) :
  subscript data "list" = Ok (PList l) ->
  subscript data' "list" = Ok (PList l') ->
  Permutation l l' ->
  returned (is_raining_this_week data) = returned (is_raining_this_week data')
  /\ (forall r1 r2,
        is_raining_this_week data = r1 -> is_raining_this_week data = r2 -> r1 = r2).
Proof.
  intros H H' HP. split.
  - rewrite !is_raining_this_week_unfold, H, H'. simpl.
    now apply classify_perm.
  - intros r1 r2 <- <-. reflexivity.
Qed.

Lemma is_raining_order_independent_witness :
  returned (is_raining_this_week
              (PDict [("list", PList [PDict []; PDict [("rain", PDict [("3h", PInt 2)])]])]))
  = returned (is_raining_this_week
                (PDict [("list", PList [PDict [("rain", PDict [("3h", PInt 2)])]; PDict []])])).
Proof.
  apply (is_raining_order_independent _ _
           [PDict []; PDict [("rain", PDict [("3h", PInt 2)])]]
           [PDict [("rain", PDict [("3h", PInt 2)])]; PDict []]).
  - reflexivity.
  - reflexivity.
  - apply perm_swap.
Defined.

(** ** The fetch stage and the flow *)

Lemma pull_forecast_eq (c k : string) (net : reply) :
  pull_forecast c k net = (attempt_trace (request_url c k), fetch_result net).
Proof.
  unfold pull_forecast, fetch_result, attempt_trace.
  destruct net as [|st body]; simpl; [reflexivity|].
  unfold raise_for_status; simpl.
  destruct (is_error_status st); simpl; [reflexivity|].
  unfold json; simpl. destruct body; reflexivity.
Qed.

Lemma trace_pair {A : Type} (tr : list event) (r : result A) : trace (tr, r) = tr.
Proof. reflexivity. Qed.

Lemma flow_unfold (parameters : list (string * string)) (k : string)
  (provider : nat -> reply) :
  flow parameters k provider
  = tbind (pull_forecast_task (resolve city parameters) k provider) after_fetch.
Proof. reflexivity. Qed.

Lemma fired_app (t : SlackTask) (tr tr' : list event) :
  fired t (tr ++ tr')%list = (fired t tr + fired t tr')%nat.
Proof. unfold fired. now rewrite filter_app, length_app. Qed.

(** The three attempts of the decorated task, spelled out. *)
Lemma pull_forecast_task_eq (c k : string) (provider : nat -> reply) :
  let a := attempt_trace (request_url c k) in
  pull_forecast_task c k provider =
  match fetch_result (provider 0%nat) with
  | Ok d => (a, Ok d)
  | Raise _ =>
      match fetch_result (provider 1%nat) with
      | Ok d => ((a ++ RetryDelay 5 :: a)%list, Ok d)
      | Raise _ =>
          ((a ++ RetryDelay 5 :: a ++ RetryDelay 5 :: a)%list,
           fetch_result (provider 2%nat))
      end
  end.
Proof.
  unfold pull_forecast_task. simpl. rewrite !pull_forecast_eq.
  destruct (fetch_result (provider 0%nat)); [reflexivity|].
  destruct (fetch_result (provider 1%nat)); [reflexivity|].
  destruct (fetch_result (provider 2%nat)); reflexivity.
Qed.

Lemma fetch_fires_nothing (t : SlackTask) (c k : string) (provider : nat -> reply) :
  fired t (trace (pull_forecast_task c k provider)) = 0%nat.
Proof.
  rewrite pull_forecast_task_eq.
  destruct (fetch_result (provider 0%nat)); [reflexivity|].
  destruct (fetch_result (provider 1%nat)); reflexivity.
Qed.

(** What follows a fetch that yielded [forecast], by what the classifier
    says of it. *)
Lemma after_fetch_eq (forecast : pyval) :
  after_fetch forecast =
  match is_raining_this_week forecast with
  | Ok true => ([SlackPost (webhook_secret rain_notification) (message rain_notification)], Ok tt)
  | Ok false => ([SlackPost (webhook_secret dry_notification) (message dry_notification)], Ok tt)
  | Raise e => ([], Raise e)
  end.
Proof.
  unfold after_fetch.
  destruct (is_raining_this_week forecast) as [[|]|e]; reflexivity.
Qed.

Lemma flow_after_fetch (parameters : list (string * string)) (k : string)
  (provider : nat -> reply) (forecast : pyval) :
  outcome (pull_forecast_task (resolve city parameters) k provider) = Ok forecast ->
  flow parameters k provider =
  ((trace (pull_forecast_task (resolve city parameters) k provider)
      ++ trace (after_fetch forecast))%list,
   outcome (after_fetch forecast)).
Proof.
  rewrite flow_unfold.
  destruct (pull_forecast_task _ k provider) as [tr r]. simpl.
  intros ->. simpl. now destruct (after_fetch forecast).
Qed.

(** C3.  In every run in which the classifier produces a boolean, exactly
    one notifier fires: the rain notifier when the boolean is [true], the
    dry notifier when it is [false]. *)
Theorem exactly_one_notifier_fires
  (parameters : list (string * string)) (api_key : string)
  (provider : nat -> reply) (forecast : pyval) (rain : bool) :
  outcome (pull_forecast_task (resolve city parameters) api_key provider) = Ok forecast ->
  is_raining_this_week forecast = Ok rain ->
  fired rain_notification (trace (flow parameters api_key provider))
  = (if rain then 1 else 0)%nat
  /\ fired dry_notification (trace (flow parameters api_key provider))
     = (if rain then 0 else 1)%nat.
Proof.
  intros Hf Hr. rewrite (flow_after_fetch _ _ _ _ Hf), !trace_pair.
  rewrite !fired_app, !fetch_fires_nothing, after_fetch_eq, Hr.
  destruct rain; split; reflexivity.
Qed.

Lemma exactly_one_notifier_fires_witness :
  fired rain_notification
    (trace (flow [("City", "Oslo")] "k3y"
              (fun _ => Response 200
                 (Some (PDict [("list", PList [PDict [("rain", PDict [("3h", PInt 4)])]])])))))
  = 1%nat
  /\ fired dry_notification
       (trace (flow [("City", "Oslo")] "k3y"
                 (fun _ => Response 200
                    (Some (PDict [("list", PList [PDict [("rain", PDict [("3h", PInt 4)])]])])))))
     = 0%nat.
Proof.
  apply (exactly_one_notifier_fires [("City", "Oslo")] "k3y" _
           (PDict [("list", PList [PDict [("rain", PDict [("3h", PInt 4)])]])]) true);
    reflexivity.
Defined.

(** C7.  Scenario A: when the fetched response has the forecast list
    [[{}, {"rain": {"3h": 0.5}}]], the classifier returns [false], the dry
    notifier fires and the rain notifier does not. *)
Theorem scenario_A_dry_notifier
  (parameters : list (string * string)) (api_key : string)
  (provider : nat -> reply) (forecast : pyval) :
  outcome (pull_forecast_task (resolve city parameters) api_key provider) = Ok forecast ->
  subscript forecast "list" = Ok (PList scenario_A) ->
  is_raining_this_week forecast = Ok false
  /\ fired dry_notification (trace (flow parameters api_key provider)) = 1%nat
  /\ fired rain_notification (trace (flow parameters api_key provider)) = 0%nat.
Proof.
  intros Hf Hl.
  assert (Hr : is_raining_this_week forecast = Ok false).
  { rewrite is_raining_this_week_unfold, Hl. reflexivity. }
  split; [exact Hr|].
  rewrite (flow_after_fetch _ _ _ _ Hf), !trace_pair.
  rewrite !fired_app, !fetch_fires_nothing, after_fetch_eq, Hr.
  split; reflexivity.
Qed.

Lemma scenario_A_dry_notifier_witness :
  is_raining_this_week (PDict [("list", PList scenario_A)]) = Ok false
  /\ fired dry_notification
       (trace (flow [] "k3y" (fun _ => Response 200 (Some (PDict [("list", PList scenario_A)])))))
     = 1%nat
  /\ fired rain_notification
       (trace (flow [] "k3y" (fun _ => Response 200 (Some (PDict [("list", PList scenario_A)])))))
     = 0%nat.
Proof.
  apply (scenario_A_dry_notifier [] "k3y"
           (fun _ => Response 200 (Some (PDict [("list", PList scenario_A)]))));
    reflexivity.
Defined.

(** A run never sends more than three requests to the provider. *)
Lemma at_most_three_requests
  (parameters : list (string * string)) (k : string) (provider : nat -> reply) :
  (requests_sent (trace (flow parameters k provider)) <= 3)%nat.
Proof.
  rewrite flow_unfold, pull_forecast_task_eq.
  destruct (fetch_result (provider 0%nat)) as [d|];
    [|destruct (fetch_result (provider 1%nat)) as [d|];
      [|destruct (fetch_result (provider 2%nat)) as [d|]]];
    unfold tbind; try rewrite after_fetch_eq;
    try destruct (is_raining_this_week d) as [[|]|];
    unfold requests_sent; simpl; lia.
Qed.

(** C4, the claim as stated is refuted: status 300 is not a success
    status, yet [raise_for_status] lets it pass; when its body is a JSON
    document the fetch stage succeeds at the first attempt and the run goes
    on to notify. *)
Lemma non_success_status_can_pass :
  is_success_status 300 = false
  /\ flow [] "k3y" (fun _ => Response 300 (Some (PDict [("list", PList [])])))
     = ([LinkArtifact (request_url "San Francisco" "k3y");
         HttpGet (request_url "San Francisco" "k3y");
         SlackPost (webhook_secret dry_notification) (message dry_notification)],
        Ok tt).
Proof. split; reflexivity. Qed.

(** C4, amended.  An HTTP error status (4xx or 5xx) makes an attempt fail
    without a result, whatever the body.  When the first two attempts fail
    this way, the stage is run a third time, five seconds after each
    failure: if the third attempt fails too, the run fails after exactly
    three attempts and no notifier has fired; if it succeeds, the run goes
    on with the third response. *)
Theorem fetch_retries_then_fails_or_proceeds
  (parameters : list (string * string)) (api_key : string)
  (provider : nat -> reply) (s0 s1 : Z) (b0 b1 : option pyval) :
  provider 0%nat = Response s0 b0 -> is_error_status s0 = true ->
  provider 1%nat = Response s1 b1 -> is_error_status s1 = true ->
  (forall c st body,
      is_error_status st = true ->
      outcome (pull_forecast c api_key (Response st body)) = Raise HTTPError)
  /\ (forall s2 b2,
        provider 2%nat = Response s2 b2 -> is_error_status s2 = true ->
        flow parameters api_key provider
        = (three_attempts (request_url (resolve city parameters) api_key),
           Raise HTTPError)
        /\ fired rain_notification (trace (flow parameters api_key provider)) = 0%nat
        /\ fired dry_notification (trace (flow parameters api_key provider)) = 0%nat)
  /\ (forall s2 data,
        provider 2%nat = Response s2 (Some data) -> is_error_status s2 = false ->
        flow parameters api_key provider
        = ((three_attempts (request_url (resolve city parameters) api_key)
              ++ trace (after_fetch data))%list,
           outcome (after_fetch data))).
Proof.
  intros H0 E0 H1 E1.
  assert (F0 : fetch_result (provider 0%nat) = Raise HTTPError)
    by (rewrite H0; simpl; now rewrite E0).
  assert (F1 : fetch_result (provider 1%nat) = Raise HTTPError)
    by (rewrite H1; simpl; now rewrite E1).
  split; [|split].
  - intros c st body E. rewrite pull_forecast_eq. simpl. now rewrite E.
  - intros s2 b2 H2 E2.
    assert (Hflow : flow parameters api_key provider
                    = (three_attempts (request_url (resolve city parameters) api_key),
                       Raise HTTPError)).
    { rewrite flow_unfold, pull_forecast_task_eq, F0, F1, H2. simpl.
      now rewrite E2. }
    rewrite Hflow. repeat split; reflexivity.
  - intros s2 data H2 E2.
    rewrite flow_unfold, pull_forecast_task_eq, F0, F1, H2. simpl.
    rewrite E2. simpl. now destruct (after_fetch data).
Qed.

Lemma fetch_retries_then_fails_or_proceeds_witness :
  flow [] "k3y" (fun _ => Response 500 None)
  = (three_attempts (request_url "San Francisco" "k3y"), Raise HTTPError)
  /\ flow [] "k3y"
       (fun n => match n with
                 | 2%nat => Response 200 (Some (PDict [("list", PList scenario_A)]))
                 | _ => Response 500 None
                 end)
     = ((three_attempts (request_url "San Francisco" "k3y")
           ++ trace (after_fetch (PDict [("list", PList scenario_A)])))%list,
        outcome (after_fetch (PDict [("list", PList scenario_A)]))).
Proof.
  split.
  - destruct (fetch_retries_then_fails_or_proceeds [] "k3y"
                (fun _ => Response 500 None) 500 500 None None
                eq_refl eq_refl eq_refl eq_refl) as [_ [H _]].
    exact (proj1 (H 500 None eq_refl eq_refl)).
  - destruct (fetch_retries_then_fails_or_proceeds [] "k3y"
                (fun n => match n with
                          | 2%nat => Response 200 (Some (PDict [("list", PList scenario_A)]))
                          | _ => Response 500 None
                          end) 500 500 None None
                eq_refl eq_refl eq_refl eq_refl) as [_ [_ H]].
    exact (H 200 _ eq_refl eq_refl).
Defined.

(** ** The request URL *)

Lemma count_char_append (c : ascii) (s1 s2 : string) :
  count_char c (s1 ++ s2) = (count_char c s1 + count_char c s2)%nat.
Proof.
  induction s1 as [|a s1 IH]; simpl; [reflexivity|].
  rewrite IH. lia.
Qed.

(** C8.  For every city and API key, the fetcher records and requests one
    URL: its part before the question mark is the provider's forecast
    endpoint [.../data/2.5/forecast], and its query is [appid=<apiKey>]
    followed by [&q=<city>]. *)
Theorem request_url_endpoint_and_query (city_ api_key : string) (net : reply) :
  trace (pull_forecast city_ api_key net)
  = [LinkArtifact (request_url city_ api_key); HttpGet (request_url city_ api_key)]
  /\ before "?" (request_url city_ api_key)
     = "http://api.openweathermap.org/data/2.5/forecast"
  /\ after "?" (request_url city_ api_key)
     = "appid=" ++ api_key ++ "&q=" ++ city_.
Proof.
  split; [|split].
  - now rewrite pull_forecast_eq.
  - reflexivity.
  - reflexivity.
Qed.

Lemma resolve_default (p : ParameterTask) (parameters : list (string * string)) :
  ~ In (name p) (map fst parameters) -> resolve p parameters = default p.
Proof.
  unfold resolve. induction parameters as [|[k v] ps IH]; simpl; intros H.
  - reflexivity.
  - destruct (String.eqb k (name p)) eqn:E.
    + apply String.eqb_eq in E. exfalso. apply H. now left.
    + apply IH. intros Hin. apply H. now right.
Qed.

Lemma first_request_in_trace (parameters : list (string * string)) (k : string)
  (provider : nat -> reply) :
  In (HttpGet (request_url (resolve city parameters) k))
     (trace (flow parameters k provider)).
Proof.
  rewrite flow_unfold, pull_forecast_task_eq.
  destruct (fetch_result (provider 0%nat)) as [d|];
    [|destruct (fetch_result (provider 1%nat)) as [d|];
      [|destruct (fetch_result (provider 2%nat)) as [d|]]];
    unfold tbind; try destruct (after_fetch d); simpl; auto.
Qed.

(** C9.  When the caller supplies no value for the [City] parameter, the
    fetch stage is run for the default city, San Francisco. *)
Theorem default_city_is_san_francisco
  (parameters : list (string * string)) (api_key : string) (provider : nat -> reply) :
  ~ In "City" (map fst parameters) ->
  resolve city parameters = "San Francisco"
  /\ flow parameters api_key provider
     = tbind (pull_forecast_task "San Francisco" api_key provider) after_fetch
  /\ In (HttpGet (request_url "San Francisco" api_key))
        (trace (flow parameters api_key provider)).
Proof.
  intros H.
  assert (E : resolve city parameters = "San Francisco")
    by (now apply (resolve_default city)).
  split; [exact E|]. split.
  - now rewrite flow_unfold, E.
  - rewrite <- E. apply first_request_in_trace.
Qed.

Lemma default_city_is_san_francisco_witness :
  resolve city [("Units", "metric")] = "San Francisco"
  /\ flow [("Units", "metric")] "k3y" (fun _ => NoReply)
     = tbind (pull_forecast_task "San Francisco" "k3y" (fun _ => NoReply)) after_fetch
  /\ In (HttpGet (request_url "San Francisco" "k3y"))
        (trace (flow [("Units", "metric")] "k3y" (fun _ => NoReply))).
Proof.
  apply default_city_is_san_francisco.
  simpl. intros [H|[]]. discriminate.
Defined.

(** C10.  The URL is the plain concatenation of the fixed text with the
    two values: both appear verbatim, so every character occurs in the URL
    as often as in the template, the key and the city together.  The
    default city is embedded with its space, and every ampersand or equals
    sign of the city (or key) adds a separator to the query string, which
    for a city and key without them has one ampersand and two equals signs. *)
Theorem request_url_plain_concatenation (city_ api_key : string) :
  request_url city_ api_key
  = "http://api.openweathermap.org/data/2.5/forecast?appid=" ++ api_key ++ "&q=" ++ city_
  /\ (forall c,
        count_char c (request_url city_ api_key)
        = (count_char c (request_url "" "") + count_char c api_key + count_char c city_)%nat)
  /\ request_url (default city) api_key
     = "http://api.openweathermap.org/data/2.5/forecast?appid=" ++ api_key ++ "&q=San Francisco"
  /\ count_char "&" (after "?" (request_url city_ api_key))
     = (1 + count_char "&" api_key + count_char "&" city_)%nat
  /\ count_char "=" (after "?" (request_url city_ api_key))
     = (2 + count_char "=" api_key + count_char "=" city_)%nat.
Proof.
  split; [reflexivity|]. split; [|split; [reflexivity|]].
  - intros c. unfold request_url.
    rewrite !count_char_append. simpl (count_char c ""). lia.
  - change (after "?" (request_url city_ api_key))
      with ("appid=" ++ api_key ++ "&q=" ++ city_).
    split; rewrite !count_char_append; simpl; lia.
Qed.

(** ** Where the API key goes *)

Lemma tbind_pair {A B : Type} (t : task A) (k : A -> task B) :
  tbind t k
  = match outcome t with
    | Ok a => ((trace t ++ trace (k a))%list, outcome (k a))
    | Raise e => (trace t, Raise e)
    end.
Proof.
  destruct t as [tr [a|e]]; simpl; [|reflexivity].
  now destruct (k a).
Qed.



(** * Further properties *)

(** ** Where the classifier returns and where it raises *)

Lemma comprehension_raise {A B : Type} (f : A -> result B) (l : list A) (e : exn) :
  comprehension f l = Raise e -> exists x, In x l /\ f x = Raise e.
Proof.
  induction l as [|x l IH]; simpl; [discriminate|].
  destruct (f x) as [y|e'] eqn:Hx; simpl.
  - destruct (comprehension f l) as [ys|e'']; simpl; [discriminate|].
    intros H. destruct (IH H) as [x' [Hin Hx']]. exists x'. auto.
  - intros [= <-]. exists x. auto.
Qed.

Lemma comprehension_if_raise {A B : Type}
  (cond : A -> result bool) (body : A -> result B) (l : list A) (e : exn) :
  comprehension_if cond body l = Raise e ->
  exists x, In x l /\ (cond x = Raise e \/ (cond x = Ok true /\ body x = Raise e)).
Proof.
  induction l as [|x l IH]; simpl; [discriminate|].
  destruct (cond x) as [[|]|e'] eqn:Hc; simpl.
  - destruct (body x) as [y|e'] eqn:Hb; simpl.
    + destruct (comprehension_if cond body l) as [ys|e'']; simpl; [discriminate|].
      intros H. destruct (IH H) as [x' [Hin Hx']]. exists x'. auto.
    + intros [= <-]. exists x. auto.
  - intros H. destruct (IH H) as [x' [Hin Hx']]. exists x'. auto.
  - intros [= <-]. exists x. auto.
Qed.

(** What [classify] raises is raised by the filter, the body or the
    comparison on one of the entries. *)
Lemma classify_raise (l : list pyval) (e : exn) :
  classify l = Raise e ->
  (exists x, In x l /\ contains "rain" x = Raise e)
  \/ (exists x, In x l /\ contains "rain" x = Ok true /\ subscript x "rain" = Raise e)
  \/ (exists x r, In x l /\ contains "rain" x = Ok true
                  /\ subscript x "rain" = Ok r /\ get r "3h" (PInt 0) = Raise e)
  \/ (exists s, ge_1 s = Raise e).
Proof.
  unfold classify.
  destruct (comprehension_if _ _ l) as [rain|e'] eqn:H1; simpl.
  - destruct (comprehension ge_1 rain) as [flags|e''] eqn:H2; simpl; [discriminate|].
    intros [= <-]. apply comprehension_raise in H2 as [s [_ Hs]].
    right. right. right. now exists s.
  - intros [= <-]. apply comprehension_if_raise in H1 as [x [Hin [Hc|[Hc Hb]]]].
    + left. now exists x.
    + right. destruct (subscript x "rain") as [r|e''] eqn:Hs; simpl in Hb.
      * right. left. now exists x, r.
      * left. injection Hb as <-. now exists x.
Qed.

Lemma entry_flag_defined (e : pyval) :
  entry_tolerated e = true <-> exists b, entry_flag e = Ok b.
Proof.
  unfold entry_tolerated, entry_flag, contains, subscript.
  destruct e as [| | | | s|l|ed]; simpl;
    try (split; [discriminate | intros [? ?]; discriminate]).
  - destruct (is_substring "rain" s); simpl; split; try discriminate; eauto.
    intros [? ?]. discriminate.
  - destruct (existsb (eq_str "rain") l); simpl; split; try discriminate; eauto.
    intros [? ?]. discriminate.
  - destruct (dict_get "rain" ed) as [r|]; simpl; [|split; eauto].
    destruct r as [| | | | | |rd]; simpl;
      try (split; [discriminate | intros [? ?]; discriminate]).
    destruct (dict_get "3h" rd) as [v|]; simpl; [|split; eauto].
    destruct v; simpl; split; try discriminate; eauto; intros [? ?]; discriminate.
Qed.

Lemma entry_flag_true (e : pyval) :
  entry_flag e = Ok true <-> counts_as_rain e.
Proof.
  unfold entry_flag, counts_as_rain, precipitation, contains, subscript.
  destruct e as [| | | | s|l|ed]; simpl;
    try (split; [discriminate | intros [? [? _]]; discriminate]).
  - destruct (is_substring "rain" s); simpl;
      (split; [discriminate | intros [? [? _]]; discriminate]).
  - destruct (existsb (eq_str "rain") l); simpl;
      (split; [discriminate | intros [? [? _]]; discriminate]).
  - destruct (dict_get "rain" ed) as [r|]; simpl;
      [|split; [discriminate | intros [? [? _]]; discriminate]].
    destruct r as [| | | | | |rd]; simpl;
      try (split; [discriminate | intros [? [? _]]; discriminate]).
    split.
    + intros H. eexists. split; [reflexivity|exact H].
    + intros [v [[= <-] Hv]]. exact Hv.
Qed.

Lemma comprehension_entry_flag_defined (l : list pyval) :
  forallb entry_tolerated l = true <-> exists flags, comprehension entry_flag l = Ok flags.
Proof.
  induction l as [|x l IH]; simpl.
  - split; eauto.
  - rewrite andb_true_iff, entry_flag_defined, IH. split.
    + intros [[b Hb] [flags Hf]]. rewrite Hb, Hf. simpl. eauto.
    + destruct (entry_flag x) as [b|]; simpl; [|intros [? ?]; discriminate].
      destruct (comprehension entry_flag l) as [flags|]; simpl;
        [|intros [? ?]; discriminate].
      eauto.
Qed.

Lemma comprehension_entry_flag_true (l : list pyval) (flags : list bool) :
  comprehension entry_flag l = Ok flags ->
  (In true flags <-> exists e, In e l /\ counts_as_rain e).
Proof.
  revert flags. induction l as [|x l IH]; simpl; intros flags.
  - intros [= <-]. simpl. split; [tauto | intros [e [[] _]]].
  - destruct (entry_flag x) as [b|] eqn:Hb; simpl; [|discriminate].
    destruct (comprehension entry_flag l) as [fl|]; simpl; [|discriminate].
    intros [= <-]. specialize (IH fl eq_refl). simpl. split.
    + intros [->|H].
      * exists x. split; [now left|]. now apply entry_flag_true.
      * apply IH in H as [e [He Hr]]. exists e. auto.
    + intros [e [[<-|He] Hr]].
      * left. apply entry_flag_true in Hr. congruence.
      * right. apply IH. now exists e.
Qed.

(** [classify] returns exactly when every entry has a defined flag. *)
Lemma classify_flags_iff (l : list pyval) (b : bool) :
  classify l = Ok b <->
  exists flags, comprehension entry_flag l = Ok flags
                /\ b = (if 1 <=? sum flags then true else false).
Proof.
  pose proof (classify_returned l) as H. split.
  - intros Hc. rewrite Hc in H. simpl in H.
    destruct (comprehension entry_flag l) as [flags|]; simpl in H; [|discriminate].
    exists flags. split; [reflexivity|]. now injection H.
  - intros [flags [Hf ->]]. rewrite Hf in H. simpl in H.
    destruct (classify l) as [b|]; simpl in H; [|discriminate].
    now injection H as ->.
Qed.

(** X1.  For a response whose [list] can be iterated, the classifier
    returns, rather than raises, exactly when every entry is tolerated. *)
Theorem is_raining_returns_iff_tolerated (data lst : pyval) (l : list pyval) :
  subscript data "list" = Ok lst ->
  iterate lst = Ok l ->
  ((exists b, is_raining_this_week data = Ok b) <-> forallb entry_tolerated l = true).
Proof.
  intros Hs Hi. rewrite is_raining_this_week_unfold, Hs. simpl. rewrite Hi. simpl.
  rewrite comprehension_entry_flag_defined. split.
  - intros [b Hb]. apply classify_flags_iff in Hb as [flags [Hf _]]. eauto.
  - intros [flags Hf]. eexists. apply classify_flags_iff. eauto.
Qed.

Lemma is_raining_returns_iff_tolerated_witness :
  (exists b,
      is_raining_this_week
        (PDict [("list", PList [PList [PStr "dry"]; PStr "sun";
                                PDict [("rain", PDict [("3h", PBool true)])]])])
      = Ok b)
  <-> forallb entry_tolerated
        [PList [PStr "dry"]; PStr "sun"; PDict [("rain", PDict [("3h", PBool true)])]]
      = true.
Proof.
  apply (is_raining_returns_iff_tolerated _
           (PList [PList [PStr "dry"]; PStr "sun";
                   PDict [("rain", PDict [("3h", PBool true)])]]));
    reflexivity.
Defined.

(** X2.  Wherever the classifier returns, it returns [true] exactly when
    some entry is an object whose [rain] object has a [3h] value (0 when the
    key is absent) that [>= 1] accepts: an [int] or a [float] of at least 1,
    or [True]. *)
Theorem is_raining_true_iff_counts (data lst : pyval) (l : list pyval) :
  subscript data "list" = Ok lst ->
  iterate lst = Ok l ->
  forallb entry_tolerated l = true ->
  exists b,
    is_raining_this_week data = Ok b
    /\ (b = true <-> exists e, In e l /\ counts_as_rain e).
Proof.
  intros Hs Hi Ht. rewrite is_raining_this_week_unfold, Hs. simpl. rewrite Hi. simpl.
  apply comprehension_entry_flag_defined in Ht as [flags Hf].
  destruct (classify_of_flags l flags Hf) as [b [Hb Hiff]].
  exists b. split; [exact Hb|].
  now rewrite Hiff, (comprehension_entry_flag_true l flags Hf).
Qed.

Lemma is_raining_true_iff_counts_witness :
  exists b,
    is_raining_this_week
      (PDict [("list", PList [PStr "sun"; PDict [("rain", PDict [("3h", PBool true)])]])])
    = Ok b
    /\ (b = true <->
        exists e,
          In e [PStr "sun"; PDict [("rain", PDict [("3h", PBool true)])]]
          /\ counts_as_rain e).
Proof.
  apply (is_raining_true_iff_counts _
           (PList [PStr "sun"; PDict [("rain", PDict [("3h", PBool true)])]]));
    reflexivity.
Defined.

(** X3.  The classifier raises [KeyError] exactly when the response is an
    object without a [list] key: the filter [if "rain" in forecast] keeps
    [forecast["rain"]] from ever raising it. *)
Theorem is_raining_key_error_iff (data : pyval) :
  is_raining_this_week data = Raise KeyError
  <-> exists d, data = PDict d /\ dict_get "list" d = None.
Proof.
  rewrite is_raining_this_week_unfold. split.
  - destruct data as [| | | | | |d]; simpl; try discriminate.
    destruct (dict_get "list" d) as [lst|] eqn:Hl; simpl; [|eauto].
    destruct (iterate lst) as [l|e] eqn:Hi; simpl.
    + intros H. exfalso.
      apply classify_raise in H as [[x [_ H]]|[[x [_ [Hc H]]]|[[x [r [_ [_ [_ H]]]]]|[v H]]]].
      * destruct x; simpl in H; discriminate.
      * destruct x as [| | | | | |ed]; simpl in Hc, H; try discriminate.
        destruct (dict_get "rain" ed); discriminate.
      * destruct r; simpl in H; discriminate.
      * destruct v; simpl in H; discriminate.
    + destruct lst; simpl in Hi; congruence.
  - intros [d [-> Hd]]. simpl. now rewrite Hd.
Qed.

(** X4.  When the classifier raises [AttributeError], some entry is an
    object whose [rain] value is not an object. *)
Theorem is_raining_attribute_error (data : pyval) :
  is_raining_this_week data = Raise AttributeError ->
  exists lst l ed r,
    subscript data "list" = Ok lst /\ iterate lst = Ok l
    /\ In (PDict ed) l /\ dict_get "rain" ed = Some r
    /\ forall rd, r <> PDict rd.
Proof.
  rewrite is_raining_this_week_unfold.
  destruct (subscript data "list") as [lst|e] eqn:Hs; simpl.
  - destruct (iterate lst) as [l|e] eqn:Hi; simpl.
    + intros H.
      apply classify_raise in H as [[x [_ H]]|[[x [_ [Hc H]]]|[[x [r [Hin [Hc [Hr H]]]]]|[v H]]]].
      * destruct x; simpl in H; discriminate.
      * destruct x as [| | | | | |ed]; simpl in Hc, H; try discriminate.
        destruct (dict_get "rain" ed); discriminate.
      * destruct x as [| | | | | |ed]; simpl in Hr; try discriminate.
        destruct (dict_get "rain" ed) as [r'|] eqn:Hd; [|discriminate].
        injection Hr as ->.
        exists lst, l, ed, r. repeat split; auto.
        intros rd ->. discriminate.
      * destruct v; simpl in H; discriminate.
    + destruct lst; simpl in Hi; try discriminate; congruence.
  - destruct data as [| | | | | |d]; simpl in Hs; try discriminate;
      try congruence.
    destruct (dict_get "list" d); congruence.
Qed.

Lemma is_raining_attribute_error_witness :
  exists lst l ed r,
    subscript (PDict [("list", PList [PDict [("rain", PStr "heavy")]])]) "list" = Ok lst
    /\ iterate lst = Ok l
    /\ In (PDict ed) l /\ dict_get "rain" ed = Some r
    /\ forall rd, r <> PDict rd.
Proof.
  apply is_raining_attribute_error. reflexivity.
Defined.

(** ** Entry lists that are not lists *)

Lemma one_character_is_not_rain (c : ascii) :
  entry_flag (PStr (String c EmptyString)) = Ok false.
Proof.
  unfold entry_flag, contains, is_substring. cbn -[ascii_dec].
  destruct (ascii_dec "r" c); reflexivity.
Qed.

Lemma characters_are_not_rain (s : string) (x : pyval) :
  In x (chars s) -> entry_flag x = Ok false.
Proof.
  induction s as [|c s IH]; simpl; [tauto|].
  intros [<-|Hin]; [apply one_character_is_not_rain | now apply IH].
Qed.

Lemma comprehension_all_false (l : list pyval) :
  (forall x, In x l -> entry_flag x = Ok false) ->
  exists flags, comprehension entry_flag l = Ok flags /\ sum flags = 0.
Proof.
  induction l as [|x l IH]; simpl; intros H.
  - exists []. auto.
  - destruct IH as [flags [Hf Hs]]; [auto|].
    rewrite (H x), Hf by auto. simpl. exists (false :: flags). auto.
Qed.

(** X5.  When the [list] of a response is a string, the classifier
    iterates over its characters and returns [false], whatever the string. *)
Theorem is_raining_list_string (data : pyval) (s : string) :
  subscript data "list" = Ok (PStr s) ->
  is_raining_this_week data = Ok false.
Proof.
  intros Hs. rewrite is_raining_this_week_unfold, Hs. simpl.
  destruct (comprehension_all_false (chars s)) as [flags [Hf H0]].
  - apply characters_are_not_rain.
  - apply classify_flags_iff. exists flags. split; [exact Hf|]. now rewrite H0.
Qed.

Lemma is_raining_list_string_witness :
  is_raining_this_week (PDict [("cod", PInt 200); ("list", PStr "rain, rain, rain")])
  = Ok false.
Proof.
  apply (is_raining_list_string _ "rain, rain, rain"). reflexivity.
Defined.

(** X6.  When the [list] of a response is an object, the classifier
    iterates over its keys: it raises [TypeError] when the text [rain]
    occurs in one of the keys and returns [false] otherwise; the values
    under the keys are never looked at. *)
Theorem is_raining_list_object (data : pyval) (d : list (string * pyval)) :
  subscript data "list" = Ok (PDict d) ->
  is_raining_this_week data
  = if existsb (fun kv => is_substring "rain" (fst kv)) d
    then Raise TypeError else Ok false.
Proof.
  intros Hs. rewrite is_raining_this_week_unfold, Hs. simpl.
  unfold classify.
  assert (H : comprehension_if
                (fun forecast => contains "rain" forecast)
                (fun forecast => r <- subscript forecast "rain" ;; get r "3h" (PInt 0))
                (map (fun kv => PStr (fst kv)) d)
              = if existsb (fun kv => is_substring "rain" (fst kv)) d
                then Raise TypeError else Ok []).
  { clear Hs. induction d as [|[k v] d IH]; simpl; [reflexivity|].
    destruct (is_substring "rain" k); simpl; [reflexivity|exact IH]. }
  rewrite H.
  destruct (existsb (fun kv => is_substring "rain" (fst kv)) d); reflexivity.
Qed.

Lemma is_raining_list_object_witness :
  is_raining_this_week
    (PDict [("list", PDict [("today", PDict [("rain", PDict [("3h", PInt 9)])])])])
  = if existsb (fun kv => is_substring "rain" (fst kv))
         [("today", PDict [("rain", PDict [("3h", PInt 9)])])]
    then Raise TypeError else Ok false.
Proof.
  apply is_raining_list_object. reflexivity.
Defined.

(** ** Putting entry lists together *)

Lemma comprehension_app {A B : Type} (f : A -> result B) (l1 l2 : list A)
  (ys1 ys2 : list B) :
  comprehension f l1 = Ok ys1 -> comprehension f l2 = Ok ys2 ->
  comprehension f (l1 ++ l2)%list = Ok (ys1 ++ ys2)%list.
Proof.
  revert ys1. induction l1 as [|x l1 IH]; simpl; intros ys1.
  - now intros [= <-].
  - destruct (f x) as [y|]; simpl; [|discriminate].
    destruct (comprehension f l1) as [ys|]; simpl; [|discriminate].
    intros [= <-] H2. now rewrite (IH ys eq_refl H2).
Qed.

Lemma sum_app (bs1 bs2 : list bool) : sum (bs1 ++ bs2)%list = sum bs1 + sum bs2.
Proof.
  induction bs1 as [|b bs1 IH]; simpl; [reflexivity|]. rewrite IH. lia.
Qed.

(** X7.  The answer for two entry lists put one after the other is the
    disjunction of the answers for each, when the classifier returns on
    both; in particular more entries never turn rain into no rain. *)
Theorem is_raining_append (data1 data2 data : pyval) (l1 l2 : list pyval) (b1 b2 : bool) :
  subscript data1 "list" = Ok (PList l1) ->
  subscript data2 "list" = Ok (PList l2) ->
  subscript data "list" = Ok (PList (l1 ++ l2)%list) ->
  is_raining_this_week data1 = Ok b1 ->
  is_raining_this_week data2 = Ok b2 ->
  is_raining_this_week data = Ok (b1 || b2).
Proof.
  intros H1 H2 H. rewrite !is_raining_this_week_unfold, H1, H2, H. simpl.
  intros R1 R2.
  apply classify_flags_iff in R1 as [f1 [Hf1 ->]].
  apply classify_flags_iff in R2 as [f2 [Hf2 ->]].
  apply classify_flags_iff. exists (f1 ++ f2)%list.
  split; [now apply comprehension_app|].
  rewrite sum_app.
  pose proof (sum_nonneg f1). pose proof (sum_nonneg f2).
  destruct (1 <=? sum f1) eqn:E1, (1 <=? sum f2) eqn:E2,
           (1 <=? sum f1 + sum f2) eqn:E; try reflexivity;
    rewrite ?Z.leb_le, ?Z.leb_gt in *; lia.
Qed.

Lemma is_raining_append_witness :
  is_raining_this_week
    (PDict [("list", PList ([PDict []] ++ [PDict [("rain", PDict [("3h", PInt 1)])]])%list)])
  = Ok (false || true).
Proof.
  apply (is_raining_append
           (PDict [("list", PList [PDict []])])
           (PDict [("list", PList [PDict [("rain", PDict [("3h", PInt 1)])]])])
           _ [PDict []] [PDict [("rain", PDict [("3h", PInt 1)])]]);
    reflexivity.
Defined.

(** ** Fields the classifier does not read *)

Lemma entry_flag_with_field (k : string) (v e : pyval) :
  k <> "rain" -> entry_flag (with_field k v e) = entry_flag e.
Proof.
  intros Hk. destruct e as [| | | | | |ed]; try reflexivity.
  unfold with_field, entry_flag, contains, subscript.
  change (dict_get "rain" ((k, v) :: ed))
    with (if String.eqb "rain" k then Some v else dict_get "rain" ed).
  destruct (String.eqb "rain" k) eqn:E; [|reflexivity].
  apply String.eqb_eq in E. congruence.
Qed.

Lemma comprehension_ext {A B : Type} (f g : A -> result B) (l : list A) :
  (forall x, f x = g x) -> comprehension f l = comprehension g l.
Proof.
  intros H. induction l as [|x l IH]; simpl; [reflexivity|].
  now rewrite H, IH.
Qed.

Lemma comprehension_map {A B C : Type} (f : B -> result C) (g : A -> B) (l : list A) :
  comprehension f (map g l) = comprehension (fun x => f (g x)) l.
Proof.
  induction l as [|x l IH]; simpl; [reflexivity|]. now rewrite IH.
Qed.

(** X19.  The classifier reads nothing of an entry but its [rain] field:
    giving every entry another field, whatever its name and value, leaves
    the answer as it was (and a response that made it raise still does). *)
Theorem is_raining_ignores_other_fields
  (data data' : pyval) (l : list pyval) (k : string) (v : pyval) :
  k <> "rain" ->
  subscript data "list" = Ok (PList l) ->
  subscript data' "list" = Ok (PList (map (with_field k v) l)) ->
  returned (is_raining_this_week data') = returned (is_raining_this_week data).
Proof.
  intros Hk H H'. rewrite !is_raining_this_week_unfold, H, H'. simpl.
  rewrite !classify_returned, comprehension_map.
  rewrite (comprehension_ext _ entry_flag); [reflexivity|].
  intros x. now apply entry_flag_with_field.
Qed.

Lemma is_raining_ignores_other_fields_witness :
  returned (is_raining_this_week
              (PDict [("list",
                       PList (map (with_field "main" (PDict [("temp", PFloat 281.5%float)]))
                                [PDict [("rain", PDict [("3h", PFloat 1.5%float)])]]))]))
  = returned (is_raining_this_week
                (PDict [("list", PList [PDict [("rain", PDict [("3h", PFloat 1.5%float)])]])])).
Proof.
  apply (is_raining_ignores_other_fields _ _
           [PDict [("rain", PDict [("3h", PFloat 1.5%float)])]]
           "main" (PDict [("temp", PFloat 281.5%float)])).
  - discriminate.
  - reflexivity.
  - reflexivity.
Defined.

(** ** One attempt, and the attempts of the fetch stage *)

Lemma run_with_retries_step {A : Type} (n : nat) (d : Z) (a : nat)
  (body : nat -> task A) :
  run_with_retries (S n) d a body
  = match outcome (body a) with
    | Ok x => (trace (body a), Ok x)
    | Raise _ =>
        ((trace (body a) ++ RetryDelay d :: trace (run_with_retries n d (S a) body))%list,
         outcome (run_with_retries n d (S a) body))
    end.
Proof.
  simpl. destruct (body a) as [tr [x|e]]; simpl; [reflexivity|].
  now destruct (run_with_retries n d (S a) body).
Qed.

Lemma run_with_retries_last {A : Type} (d : Z) (a : nat) (body : nat -> task A) :
  run_with_retries 0 d a body = body a.
Proof. simpl. now destruct (body a) as [tr [x|e]]. Qed.

Lemma requests_sent_attempts (url : string) (d : Z) (j : nat) :
  requests_sent (attempts_with_delays url d j) = S j.
Proof.
  induction j as [|j IH]; [reflexivity|].
  unfold requests_sent in *. simpl. now rewrite IH.
Qed.

(** X9.  Whatever the provider answers, the trace of a stage run with [n]
    retries is a sequence of attempts for the same URL, at least one and at
    most [n + 1], each a link artifact followed by the request, with one
    wait of the configured delay after each attempt but the last, and
    nothing else. *)
Theorem retries_wait_between_attempts (n : nat) (d : Z) (a : nat) (c k : string)
  (provider : nat -> reply) :
  exists j,
    (j <= n)%nat
    /\ trace (run_with_retries n d a (fun i => pull_forecast c k (provider i)))
       = attempts_with_delays (request_url c k) d j
    /\ requests_sent (trace (run_with_retries n d a
                               (fun i => pull_forecast c k (provider i)))) = S j.
Proof.
  revert a. induction n as [|n IH]; intros a.
  - exists 0%nat. rewrite run_with_retries_last, pull_forecast_eq, trace_pair.
    repeat split. lia.
  - rewrite run_with_retries_step, pull_forecast_eq. unfold outcome at 1. simpl snd.
    rewrite trace_pair.
    destruct (fetch_result (provider a)) as [x|e]; rewrite trace_pair.
    + exists 0%nat. repeat split. lia.
    + destruct (IH (S a)) as [j [Hj [Htr _]]].
      exists (S j). rewrite Htr. split; [lia|]. split; [reflexivity|].
      apply (requests_sent_attempts (request_url c k) d (S j)).
Qed.

(** X10.  The stage returns the data of the first attempt that succeeds
    and stops there: the answers the provider would give to later requests
    play no part. *)
Theorem retries_stop_at_first_success (n m : nat) (d : Z) (a : nat) (c k : string)
  (provider : nat -> reply) (data : pyval) :
  (n <= m)%nat ->
  (forall i, (i < n)%nat -> exists e, fetch_result (provider (a + i)%nat) = Raise e) ->
  fetch_result (provider (a + n)%nat) = Ok data ->
  outcome (run_with_retries m d a (fun i => pull_forecast c k (provider i))) = Ok data
  /\ requests_sent (trace (run_with_retries m d a
                             (fun i => pull_forecast c k (provider i)))) = S n.
Proof.
  revert m a. induction n as [|n IH]; intros m a Hle Hfail Hok.
  - rewrite Nat.add_0_r in Hok.
    destruct m as [|m].
    + rewrite run_with_retries_last, pull_forecast_eq, Hok. now split.
    + rewrite run_with_retries_step, pull_forecast_eq. unfold outcome at 1. simpl snd.
      rewrite Hok. now split.
  - destruct m as [|m]; [lia|].
    rewrite run_with_retries_step, pull_forecast_eq. unfold outcome at 1. simpl snd.
    destruct (Hfail 0%nat) as [e He]; [lia|]. rewrite Nat.add_0_r in He. rewrite He.
    destruct (IH m (S a)) as [Ho Hr].
    + lia.
    + intros i Hi. replace (S a + i)%nat with (a + S i)%nat by lia.
      apply Hfail. lia.
    + now replace (S a + n)%nat with (a + S n)%nat by lia.
    + split; [exact Ho|].
      rewrite !trace_pair. revert Hr.
      generalize (trace (run_with_retries m d (S a)
                           (fun i => pull_forecast c k (provider i)))).
      intros tr. unfold requests_sent. simpl. lia.
Qed.

Lemma retries_stop_at_first_success_witness :
  outcome (pull_forecast_task "Oslo" "k3y"
             (fun i => match i with
                       | 0%nat => NoReply
                       | 1%nat => Response 200 (Some (PInt 1))
                       | _ => Response 200 (Some (PInt 2))
                       end))
  = Ok (PInt 1)
  /\ requests_sent
       (trace (pull_forecast_task "Oslo" "k3y"
                 (fun i => match i with
                           | 0%nat => NoReply
                           | 1%nat => Response 200 (Some (PInt 1))
                           | _ => Response 200 (Some (PInt 2))
                           end)))
     = 2%nat.
Proof.
  apply (retries_stop_at_first_success 1 2 5 0 "Oslo" "k3y"
           (fun i => match i with
                     | 0%nat => NoReply
                     | 1%nat => Response 200 (Some (PInt 1))
                     | _ => Response 200 (Some (PInt 2))
                     end)).
  - lia.
  - intros i Hi. assert (i = 0%nat) as -> by lia. simpl. eauto.
  - reflexivity.
Defined.

(** X11.  When every attempt fails, the stage makes all [m + 1] attempts
    and fails with the error of the last one, not of the first. *)
Theorem retries_surface_last_error (m : nat) (d : Z) (a : nat) (c k : string)
  (provider : nat -> reply) :
  (forall i, (i <= m)%nat -> exists e, fetch_result (provider (a + i)%nat) = Raise e) ->
  outcome (run_with_retries m d a (fun i => pull_forecast c k (provider i)))
  = fetch_result (provider (a + m)%nat)
  /\ requests_sent (trace (run_with_retries m d a
                             (fun i => pull_forecast c k (provider i)))) = S m.
Proof.
  revert a. induction m as [|m IH]; intros a Hfail.
  - rewrite run_with_retries_last, pull_forecast_eq, Nat.add_0_r. now split.
  - rewrite run_with_retries_step, pull_forecast_eq. unfold outcome at 1. simpl snd.
    destruct (Hfail 0%nat) as [e He]; [lia|]. rewrite Nat.add_0_r in He. rewrite He.
    destruct (IH (S a)) as [Ho Hr].
    + intros i Hi. replace (S a + i)%nat with (a + S i)%nat by lia.
      apply Hfail. lia.
    + split.
      * simpl snd. rewrite Ho. f_equal. f_equal. lia.
      * rewrite !trace_pair. revert Hr.
        generalize (trace (run_with_retries m d (S a)
                             (fun i => pull_forecast c k (provider i)))).
        intros tr. unfold requests_sent. simpl. lia.
Qed.

Lemma retries_surface_last_error_witness :
  outcome (pull_forecast_task "Oslo" "k3y"
             (fun i => match i with
                       | 0%nat => NoReply
                       | 1%nat => Response 503 None
                       | _ => Response 200 None
                       end))
  = Raise JSONDecodeError
  /\ requests_sent
       (trace (pull_forecast_task "Oslo" "k3y"
                 (fun i => match i with
                           | 0%nat => NoReply
                           | 1%nat => Response 503 None
                           | _ => Response 200 None
                           end)))
     = 3%nat.
Proof.
  apply (retries_surface_last_error 2 5 0 "Oslo" "k3y"
           (fun i => match i with
                     | 0%nat => NoReply
                     | 1%nat => Response 503 None
                     | _ => Response 200 None
                     end)).
  intros i Hi. destruct i as [|[|[|i]]]; simpl; eauto.
Defined.

(** ** Runs that fail, and what a run posts *)

Lemma posts_app (tr tr' : list event) :
  posts (tr ++ tr')%list = (posts tr + posts tr')%nat.
Proof. unfold posts. now rewrite filter_app, length_app. Qed.

Lemma fetch_posts_nothing (c k : string) (provider : nat -> reply) :
  posts (trace (pull_forecast_task c k provider)) = 0%nat.
Proof.
  rewrite pull_forecast_task_eq.
  destruct (fetch_result (provider 0%nat)); [reflexivity|].
  destruct (fetch_result (provider 1%nat)); reflexivity.
Qed.

(** X12.  When the fetch stage fails, for whatever reason, the run fails
    with the error of the stage right after its last attempt: the classifier
    is not run and nothing is posted to Slack. *)
Theorem fetch_failure_fails_run
  (parameters : list (string * string)) (k : string)
  (provider : nat -> reply) (e : exn) :
  outcome (pull_forecast_task (resolve city parameters) k provider) = Raise e ->
  flow parameters k provider
  = (trace (pull_forecast_task (resolve city parameters) k provider), Raise e)
  /\ posts (trace (flow parameters k provider)) = 0%nat.
Proof.
  intros H.
  assert (E : flow parameters k provider
              = (trace (pull_forecast_task (resolve city parameters) k provider), Raise e)).
  { rewrite flow_unfold, tbind_pair. now rewrite H. }
  split; [exact E|].
  rewrite E, trace_pair. apply fetch_posts_nothing.
Qed.

Lemma fetch_failure_fails_run_witness :
  flow [] "k3y" (fun _ => NoReply)
  = (trace (pull_forecast_task (resolve city []) "k3y" (fun _ => NoReply)),
     Raise ConnectionError)
  /\ posts (trace (flow [] "k3y" (fun _ => NoReply))) = 0%nat.
Proof.
  apply fetch_failure_fails_run. reflexivity.
Defined.

(** X13.  When the classifier raises on the fetched response, the run
    fails with that exception and nothing is posted to Slack: neither the
    rain nor the dry message is sent for a response that cannot be read. *)
Theorem classifier_failure_fails_run
  (parameters : list (string * string)) (k : string)
  (provider : nat -> reply) (forecast : pyval) (e : exn) :
  outcome (pull_forecast_task (resolve city parameters) k provider) = Ok forecast ->
  is_raining_this_week forecast = Raise e ->
  flow parameters k provider
  = (trace (pull_forecast_task (resolve city parameters) k provider), Raise e)
  /\ posts (trace (flow parameters k provider)) = 0%nat.
Proof.
  intros Hf Hr.
  assert (E : flow parameters k provider
              = (trace (pull_forecast_task (resolve city parameters) k provider), Raise e)).
  { rewrite (flow_after_fetch _ _ _ _ Hf), after_fetch_eq, Hr, trace_pair.
    now rewrite app_nil_r. }
  split; [exact E|].
  rewrite E, trace_pair. apply fetch_posts_nothing.
Qed.

Lemma classifier_failure_fails_run_witness :
  flow [] "k3y" (fun _ => Response 200 (Some (PDict [("cod", PStr "404")])))
  = (trace (pull_forecast_task (resolve city []) "k3y"
              (fun _ => Response 200 (Some (PDict [("cod", PStr "404")])))),
     Raise KeyError)
  /\ posts (trace (flow [] "k3y"
                     (fun _ => Response 200 (Some (PDict [("cod", PStr "404")])))))
     = 0%nat.
Proof.
  apply (classifier_failure_fails_run [] "k3y" _ (PDict [("cod", PStr "404")]));
    reflexivity.
Defined.

(** X14.  Every run posts to Slack at most once, as the last thing it
    does and to the webhook [SLACK_WEBHOOK_URL_MHQ]; it posts only when the
    fetch stage has yielded a response on which the classifier returned,
    and then the rain message for [True] and the dry message for [False]. *)
Theorem posts_at_most_once_and_last
  (parameters : list (string * string)) (k : string) (provider : nat -> reply) :
  (posts (trace (flow parameters k provider)) <= 1)%nat
  /\ exists pre,
       posts pre = 0%nat
       /\ (trace (flow parameters k provider) = pre
           \/ exists forecast rain,
                outcome (pull_forecast_task (resolve city parameters) k provider)
                = Ok forecast
                /\ is_raining_this_week forecast = Ok rain
                /\ trace (flow parameters k provider)
                   = (pre ++ [SlackPost "SLACK_WEBHOOK_URL_MHQ"
                                (message (if rain then rain_notification
                                          else dry_notification))])%list).
Proof.
  rewrite flow_unfold, tbind_pair.
  pose proof (fetch_posts_nothing (resolve city parameters) k provider) as H0.
  destruct (outcome (pull_forecast_task (resolve city parameters) k provider))
    as [forecast|e] eqn:Hf.
  - rewrite after_fetch_eq.
    destruct (is_raining_this_week forecast) as [[|]|e] eqn:Hr;
      rewrite !trace_pair, ?posts_app, ?H0;
      (split; [unfold posts; simpl; lia|]);
      exists (trace (pull_forecast_task (resolve city parameters) k provider));
      (split; [exact H0|]).
    + right. exists forecast, true. auto.
    + right. exists forecast, false. auto.
    + left. apply app_nil_r.
  - rewrite trace_pair. split; [lia|].
    exists (trace (pull_forecast_task (resolve city parameters) k provider)).
    split; [exact H0|now left].
Qed.

(** ** The city parameter *)

Lemma resolve_supplied (p : ParameterTask) (parameters : list (string * string))
  (v : string) :
  NoDup (map fst parameters) -> In (name p, v) parameters -> resolve p parameters = v.
Proof.
  unfold resolve. induction parameters as [|[k' v'] ps IH]; simpl; intros Hnd Hin.
  - contradiction.
  - inversion Hnd as [|? ? Hnot Hnd']; subst.
    destruct (String.eqb k' (name p)) eqn:E.
    + apply String.eqb_eq in E. subst k'.
      destruct Hin as [[= ->]|Hin]; [reflexivity|].
      exfalso. apply Hnot. now apply (in_map fst) in Hin.
    + destruct Hin as [[= -> _]|Hin]; [now rewrite String.eqb_refl in E|].
      now apply IH.
Qed.

(** X15.  A value supplied for the [City] parameter replaces the default:
    the requests of the run are made for the supplied city. *)
Theorem supplied_city_is_used
  (parameters : list (string * string)) (v k : string) (provider : nat -> reply) :
  NoDup (map fst parameters) ->
  In ("City", v) parameters ->
  flow parameters k provider = tbind (pull_forecast_task v k provider) after_fetch
  /\ In (HttpGet (request_url v k)) (trace (flow parameters k provider))
  /\ forall url, In (HttpGet url) (trace (flow parameters k provider)) ->
                 url = request_url v k.
Proof.
  intros Hnd Hin.
  assert (E : resolve city parameters = v) by (now apply (resolve_supplied city)).
  split; [now rewrite flow_unfold, E|]. split.
  - rewrite <- E. apply first_request_in_trace.
  - intros url. rewrite flow_unfold, E, pull_forecast_task_eq.
    destruct (fetch_result (provider 0%nat)) as [d|];
      [|destruct (fetch_result (provider 1%nat)) as [d|];
        [|destruct (fetch_result (provider 2%nat)) as [d|]]];
      unfold tbind; try rewrite after_fetch_eq;
      try destruct (is_raining_this_week d) as [[|]|];
      simpl; intuition (try discriminate; try congruence).
Qed.

Lemma supplied_city_is_used_witness :
  flow [("Units", "metric"); ("City", "Oslo")] "k3y" (fun _ => NoReply)
  = tbind (pull_forecast_task "Oslo" "k3y" (fun _ => NoReply)) after_fetch
  /\ In (HttpGet (request_url "Oslo" "k3y"))
        (trace (flow [("Units", "metric"); ("City", "Oslo")] "k3y" (fun _ => NoReply)))
  /\ forall url,
       In (HttpGet url)
          (trace (flow [("Units", "metric"); ("City", "Oslo")] "k3y" (fun _ => NoReply))) ->
       url = request_url "Oslo" "k3y".
Proof.
  apply supplied_city_is_used.
  - simpl. repeat constructor; simpl; intuition discriminate.
  - simpl. auto.
Defined.

(** ** Which URLs tell the key and the city apart *)

Lemma append_assoc' (s1 s2 s3 : string) : (s1 ++ s2) ++ s3 = s1 ++ (s2 ++ s3).
Proof.
  induction s1 as [|a s1 IH]; simpl; [reflexivity|]. now rewrite IH.
Qed.

Lemma append_cancel_l (s x y : string) : s ++ x = s ++ y -> x = y.
Proof.
  induction s as [|a s IH]; simpl; [auto|]. intros [= H]. auto.
Qed.

(** Two strings without ampersand followed by an ampersand and the rest. *)
Lemma split_at_first_ampersand (k1 k2 r1 r2 : string) :
  count_char "&" k1 = 0%nat -> count_char "&" k2 = 0%nat ->
  k1 ++ String "&" r1 = k2 ++ String "&" r2 ->
  k1 = k2 /\ r1 = r2.
Proof.
  revert k2. induction k1 as [|a k1 IH]; intros [|b k2]; simpl.
  - intros _ _ [= ->]. auto.
  - intros _ H [= <- _]. simpl in H. discriminate.
  - intros H _ [= -> _]. simpl in H. discriminate.
  - intros H1 H2 [= -> H].
    destruct (Ascii.eqb b "&"); [discriminate|].
    destruct (IH k2 H1 H2 H) as [-> ->]. auto.
Qed.

(** X16.  The URL does not tell where the key ends and the city begins: a
    key that goes on with [&q=] and a city that starts with the same text
    give the same URL. *)
Theorem request_url_confuses_key_and_city (a b c : string) :
  request_url c (a ++ "&q=" ++ b) = request_url (b ++ "&q=" ++ c) a.
Proof.
  unfold request_url. f_equal. f_equal.
  now rewrite !append_assoc'.
Qed.

(** X17.  For keys without an ampersand the URL determines both the key
    and the city. *)
Theorem request_url_injective (c1 c2 k1 k2 : string) :
  count_char "&" k1 = 0%nat -> count_char "&" k2 = 0%nat ->
  request_url c1 k1 = request_url c2 k2 ->
  k1 = k2 /\ c1 = c2.
Proof.
  intros H1 H2 H. unfold request_url in H.
  apply append_cancel_l, append_cancel_l in H.
  apply (split_at_first_ampersand k1 k2 ("q=" ++ c1) ("q=" ++ c2)) in H as [-> H];
    [|assumption|assumption].
  split; [reflexivity|].
  now apply append_cancel_l in H.
Qed.

Lemma request_url_injective_witness :
  "k3y" = "k3y" /\ "Paris&units=metric" = "Paris&units=metric".
Proof.
  apply (request_url_injective "Paris&units=metric" "Paris&units=metric" "k3y" "k3y");
    reflexivity.
Defined.

(** ** The schedule *)

Lemma noon_on_weekdays_parsed (t : moment) :
  cron_matches "0 12 * * 1-5" t
  = Some (field_matches [{| lo := 0; hi := 0; step := 1 |}] (minute t)
          && field_matches [{| lo := 12; hi := 12; step := 1 |}] (hour t)
          && field_matches [{| lo := 1; hi := 12; step := 1 |}] (month t)
          && (field_matches [{| lo := 1; hi := 31; step := 1 |}] (day t)
              && weekday_matches [{| lo := 1; hi := 5; step := 1 |}] (weekday t))).
Proof. reflexivity. Qed.

Lemma item_matches_step_1 (a b v : nat) :
  item_matches {| lo := a; hi := b; step := 1 |} v = true <-> (a <= v <= b)%nat.
Proof.
  unfold item_matches. cbn [lo hi step].
  rewrite Nat.mod_1_r, !andb_true_iff, !Nat.leb_le, Nat.eqb_eq. lia.
Qed.

(** X18.  The schedule fires at noon from Monday to Friday, and at no
    other moment: never at a weekend, never at another time of the day. *)
Theorem schedule_fires_weekdays_at_noon (t : moment) :
  valid_moment t ->
  (schedule_fires schedule t = true
   <-> minute t = 0%nat /\ hour t = 12%nat /\ (1 <= weekday t <= 5)%nat).
Proof.
  unfold valid_moment. intros Hv.
  unfold schedule_fires, schedule. cbn [existsb cron].
  rewrite noon_on_weekdays_parsed, orb_false_r.
  unfold weekday_matches, field_matches. cbn [existsb].
  rewrite !orb_false_r, !andb_true_iff, orb_true_iff, andb_true_iff.
  rewrite !item_matches_step_1, Nat.eqb_eq. lia.
Qed.

Lemma schedule_fires_weekdays_at_noon_witness :
  schedule_fires schedule
    {| minute := 0; hour := 12; day := 3; month := 11; weekday := 2 |} = true
  <-> 0%nat = 0%nat /\ 12%nat = 12%nat /\ (1 <= 2 <= 5)%nat.
Proof.
  apply (schedule_fires_weekdays_at_noon
           {| minute := 0; hour := 12; day := 3; month := 11; weekday := 2 |}).
  unfold valid_moment. simpl. lia.
Defined.
